(** * UnstructuredParser: a shallow embedding of
      airbyte_cdk/sources/file_based/file_types/unstructured_parser.py

    The parser detects the type of a document, extracts its text through the
    [unstructured] library and renders the extracted elements as Markdown.
    The library is external: its entry points are collected in the record
    [Unstructured] and every function of the parser takes it as a
    parameter. *)

From Stdlib Require Import String Ascii List ZArith Lia Bool.
From Stdlib Require Strings.Byte.
Import ListNotations.
Local Open Scope string_scope.

(** ** Strings *)

(** The line feed, written [\n] in the Python source. *)
Definition LF : string := String "010"%char EmptyString.

(** Python's [s * n] on strings; a count of zero or less gives the empty
    string. *)
Fixpoint str_repeat (s : string) (n : nat) : string :=
  match n with
  | O => EmptyString
  | S k => s ++ str_repeat s k
  end.

Definition str_mul (s : string) (n : Z) : string := str_repeat s (Z.to_nat n).

(** [contains s sub]: [sub] occurs in [s] (Python's [sub in s]). *)
Definition contains (s sub : string) : Prop :=
  exists pre post, s = pre ++ sub ++ post.

(** ** Document elements (unstructured.documents.elements) *)

(** The classes the renderer tells apart.  [Title], [ListItem] and
    [Formula] are the three it tests with [isinstance]; [Text] stands for
    every other element that has a [text] attribute and [NoText] for an
    object that has none.  [category_depth] is [metadata.category_depth],
    an optional Python integer. *)
Inductive Element : Type :=
| Title (category_depth : option Z) (text : string)
| ListItem (text : string)
| Formula (text : string)
| Text (text : string)
| NoText.

(** ** The Markdown renderer *)

(** [el.metadata.category_depth or 1]: Python's [or] yields its right
    operand when the left one is falsy, that is [None] or [0]. *)
Definition depth_or_1 (category_depth : option Z) : Z :=
  match category_depth with
  | None => 1
  | Some 0%Z => 1
  | Some d => d
  end.

Definition _convert_to_markdown (el : Element) : string :=
  match el with
  | Title category_depth text =>
      let heading_str := str_mul "#" (depth_or_1 category_depth) in
      heading_str ++ " " ++ text
  | ListItem text => "- " ++ text
  | Formula text => "```" ++ LF ++ text ++ LF ++ "```"
  | Text text => text
  | NoText => ""
  end.

Definition _render_markdown (elements : list Element) : string :=
  String.concat (LF ++ LF) (map _convert_to_markdown elements).

(** *** The renderer as the specification words it *)

(** One ['#'] per unit of the nesting depth, a single one when the depth is
    absent. *)
Definition spec_heading_level (category_depth : option Z) : nat :=
  match category_depth with
  | None => 1
  | Some d => Z.to_nat d
  end.

(** The same, with a depth of zero treated like an absent one. *)
Definition spec_heading_level_amended (category_depth : option Z) : nat :=
  match category_depth with
  | None => 1
  | Some d => if Z.eqb d 0 then 1 else Z.to_nat d
  end.

Section SpecRenderer.
Variable heading_level : option Z -> nat.

Definition spec_render_element (el : Element) : string :=
  match el with
  | Title d text => str_repeat "#" (heading_level d) ++ " " ++ text
  | ListItem text => "- " ++ text
  | Formula text => "```" ++ LF ++ text ++ LF ++ "```"
  | Text text => text
  | NoText => ""
  end.

(** The renderings with a blank line between consecutive ones. *)
Fixpoint spec_render (elements : list Element) : string :=
  match elements with
  | [] => ""
  | [el] => spec_render_element el
  | el :: rest => spec_render_element el ++ LF ++ LF ++ spec_render rest
  end.
End SpecRenderer.

(** ** File types (unstructured.file_utils.filetype) *)

(** The members of the library's [FileType] enumeration. *)
Inductive FileType : Type :=
| UNK | EMPTY | TXT | EML | MSG | HTML | XML | PDF | DOC | DOCX | XLSX | XLS
| ODT | PPT | PPTX | CSV | TSV | JPG | PNG | TIFF | MD | EPUB | RST | RTF
| JSON | ORG | ZIP.

Definition FileType_name (t : FileType) : string :=
  match t with
  | UNK => "UNK" | EMPTY => "EMPTY" | TXT => "TXT" | EML => "EML"
  | MSG => "MSG" | HTML => "HTML" | XML => "XML" | PDF => "PDF"
  | DOC => "DOC" | DOCX => "DOCX" | XLSX => "XLSX" | XLS => "XLS"
  | ODT => "ODT" | PPT => "PPT" | PPTX => "PPTX" | CSV => "CSV"
  | TSV => "TSV" | JPG => "JPG" | PNG => "PNG" | TIFF => "TIFF"
  | MD => "MD" | EPUB => "EPUB" | RST => "RST" | RTF => "RTF"
  | JSON => "JSON" | ORG => "ORG" | ZIP => "ZIP"
  end.

Definition FileType_eq_dec (a b : FileType) : {a = b} + {a <> b}.
Proof. decide equality. Defined.

Definition FileType_eqb (a b : FileType) : bool :=
  if FileType_eq_dec a b then true else false.

(** [str(t)] of an enumeration member. *)
Definition FileType_str (t : FileType) : string := "FileType." ++ FileType_name t.

(** [str] of a value of type [Optional[FileType]], as an f-string formats
    it. *)
Definition filetype_str (t : option FileType) : string :=
  match t with
  | None => "None"
  | Some t => FileType_str t
  end.

(** ** Exceptions *)

(** The exceptions the parser raises or lets through.  [Exception msg] is
    any exception of the extraction library, kept by its [str]. *)
Inductive PyException : Type :=
| RecordParseError (filename message : string)
| ValueError (msg : string)
| Exception (msg : string).

(** Modelled from the spec: [FileBasedSourceError.ERROR_PARSING_RECORD] and
    the text of a [RecordParseError] are in the module
    file_based/exceptions.py, which is missing; "a single structured error
    carrying filename and message".  The wording is the one the unit tests
    of the parser expect. *)
Definition ERROR_PARSING_RECORD : string :=
  "Error parsing record. This could be due to a mismatch between the config's file type and the actual file type, or because the file or record is not parseable.".

Definition RecordParseError_str (filename message : string) : string :=
  ERROR_PARSING_RECORD ++ " Contact Support if you need assistance." ++ LF
    ++ "filename=" ++ filename ++ " message=" ++ message.

(** [str(e)]. *)
Definition exception_str (e : PyException) : string :=
  match e with
  | RecordParseError filename message => RecordParseError_str filename message
  | ValueError msg => msg
  | Exception msg => msg
  end.

Definition Result (A : Type) : Type := (PyException + A)%type.

(** ** Files, configuration and streams *)

(** Modelled from the spec: the class [RemoteFile] (file_based/remote_file.py)
    is missing; a file is "identified by a URI string, optional MIME type,
    last-modified timestamp". *)
Record RemoteFile : Type := {
  uri : string;
  last_modified : Z;
  mime_type : option string
}.

(** Modelled from the spec: the class [UnstructuredFormat]
    (file_based/config/unstructured_format.py) is missing; "a flag
    [skip_unprocessable_files] (boolean)". *)
Record UnstructuredFormat : Type := {
  skip_unprocessable_files : bool
}.

(** [config.format] is one of several format classes; only
    [UnstructuredFormat] matters here, the others are kept by their
    [repr]. *)
Inductive ConfigFormat : Type :=
| Unstructured_format (f : UnstructuredFormat)
| Other_format (repr : string).

Record FileBasedStreamConfig : Type := {
  format : ConfigFormat
}.

(** A binary stream: its bytes, the read position and the [name]
    attribute.  [name = None] is a stream without the attribute,
    [Some None] one whose attribute is [None]. *)
Record IOBase : Type := {
  data : list Byte.byte;
  pos : nat;
  name : option (option string)
}.

(** Modelled from the spec: the stream reader
    (file_based/file_based_stream_reader.py) is missing; [open_file] hands
    out "an open binary stream for a given file (supports seek)", read from
    its start. *)
Record AbstractFileBasedStreamReader : Type := {
  file_bytes : RemoteFile -> list Byte.byte;
  file_name : RemoteFile -> option (option string)
}.

Definition open_file (stream_reader : AbstractFileBasedStreamReader)
    (file : RemoteFile) : IOBase :=
  {| data := file_bytes stream_reader file;
     pos := 0;
     name := file_name stream_reader file |}.

(** ** A state and error monad over the open stream *)

Definition M (A : Type) : Type := IOBase -> Result A * IOBase.

Definition ret {A} (a : A) : M A := fun f => (inr a, f).

Definition raise {A} (e : PyException) : M A := fun f => (inl e, f).

Definition bind {A B} (m : M A) (k : A -> M B) : M B :=
  fun f =>
    match m f with
    | (inl e, f') => (inl e, f')
    | (inr a, f') => k a f'
    end.

Notation "x <- m ;; k" := (bind m (fun x => k))
  (at level 61, m at next level, right associativity).
Notation "m ;;; k" := (bind m (fun _ => k))
  (at level 61, right associativity).

(** [file.read()]: the bytes from the read position to the end. *)
Definition read : M (list Byte.byte) :=
  fun f =>
    (inr (skipn (pos f) (data f)),
     {| data := data f; pos := Nat.max (pos f) (length (data f)); name := name f |}).

(** [file.seek(offset)]. *)
Definition seek (offset : nat) : M unit :=
  fun f => (inr tt, {| data := data f; pos := offset; name := name f |}).

(** [if hasattr(file, "name"): file.name = None]. *)
Definition clear_name : M unit :=
  fun f =>
    (inr tt,
     {| data := data f;
        pos := pos f;
        name := match name f with
                | Some _ => Some None
                | None => None
                end |}).

(** ** The extraction library *)

(** What a call into the library gives back when nothing catches its
    exception: the [str] of the exception it raised, or its value.  The
    library does not know the parser's [RecordParseError]; what it raises
    reaches the parser as an [Exception]. *)
Definition LibraryResult (A : Type) : Type := (string + A)%type.

Definition from_library {A} (r : LibraryResult A) : Result A :=
  match r with
  | inl msg => inl (Exception msg)
  | inr a => inr a
  end.

(** A call into the library that leaves the stream alone. *)
Definition call {A} (r : LibraryResult A) : M A := fun f => (from_library r, f).

(** The entry points of [unstructured] the parser calls; each of them may
    raise.  [detect_filetype] is called in two ways: with [filename=] it
    looks at the name only; with [file=] it is handed the stream as it is,
    at its current read position, answers [detect_filetype_file] and leaves
    the read position at [detect_filetype_tell].  A partition function
    either raises or returns the elements of the document; its exception
    is caught whatever its class, so it is kept as any exception.
    [optional_decode] either raises or returns the text of the bytes. *)
Record Unstructured : Type := {
  STR_TO_FILETYPE : string -> option FileType;
  detect_filetype_filename : string -> LibraryResult (option FileType);
  detect_filetype_file : IOBase -> LibraryResult (option FileType);
  detect_filetype_tell : IOBase -> nat;
  partition_pdf : list Byte.byte -> Result (list Element);
  partition_docx : list Byte.byte -> Result (list Element);
  partition_pptx : list Byte.byte -> Result (list Element);
  optional_decode : list Byte.byte -> LibraryResult string
}.

(** [detect_filetype(file=file)]. *)
Definition detect_filetype_of_stream (lib : Unstructured) : M (option FileType) :=
  fun f =>
    (from_library (detect_filetype_file lib f),
     {| data := data f; pos := detect_filetype_tell lib f; name := name f |}).

(** A partition function called on the stream itself reads it to its
    end. *)
Definition partition_stream (partition : list Byte.byte -> Result (list Element))
    : M (list Element) :=
  content <- read ;;
  fun f => (partition content, f).

(** ** The parser *)

Module UnstructuredParser.

Section Parser.
Context (lib : Unstructured).

Definition _supported_file_types : list FileType := [MD; PDF; DOCX; PPTX].

(** [filetype in self._supported_file_types()]; [None] is no member. *)
Definition is_supported (filetype : option FileType) : bool :=
  match filetype with
  | Some t => existsb (FileType_eqb t) _supported_file_types
  | None => false
  end.

Definition _get_file_type_error_message (file_type : option FileType) : string :=
  let supported_file_types :=
    String.concat ", " (map FileType_str _supported_file_types) in
  "File type " ++ filetype_str file_type
    ++ " is not supported. Supported file types are " ++ supported_file_types.

Definition _create_parse_error (remote_file : RemoteFile) (message : string)
    : PyException :=
  RecordParseError (uri remote_file) message.

(** [remote_file.mime_type and remote_file.mime_type in STR_TO_FILETYPE]:
    an absent or empty MIME type is falsy; the value is
    [STR_TO_FILETYPE[remote_file.mime_type]] when the test succeeds. *)
Definition mime_filetype (remote_file : RemoteFile) : option FileType :=
  match mime_type remote_file with
  | None => None
  | Some m => if String.eqb m "" then None else STR_TO_FILETYPE lib m
  end.

(** [file_type is not None and not file_type == FileType.UNK]. *)
Definition is_known (file_type : option FileType) : bool :=
  match file_type with
  | None => false
  | Some t => negb (FileType_eqb t UNK)
  end.

Definition _get_filetype (remote_file : RemoteFile) : M (option FileType) :=
  match mime_filetype remote_file with
  | Some t => ret (Some t)
  | None =>
      clear_name ;;;
      file_type <- call (detect_filetype_filename lib (uri remote_file)) ;;
      if is_known file_type then ret file_type
      else
        type_based_on_content <- detect_filetype_of_stream lib ;;
        seek 0 ;;;
        ret type_based_on_content
  end.

(** The [try] around a partition call and the rendering that follows it:
    [except Exception as e: raise self._create_parse_error(remote_file, str(e))],
    then [return self._render_markdown(elements)]. *)
Definition partition_and_render (remote_file : RemoteFile)
    (partition : M (list Element)) : M string :=
  fun f =>
    match partition f with
    | (inl e, f') => (inl (_create_parse_error remote_file (exception_str e)), f')
    | (inr elements, f') => (inr (_render_markdown elements), f')
    end.

(** [_import_unstructured] binds the four entry points of [lib]; they are
    functions, hence truthy, and the availability guard that follows the
    import lets every call through. *)
Definition _read_file (remote_file : RemoteFile) (fmt : UnstructuredFormat)
    : M string :=
  filetype <- _get_filetype remote_file ;;
  if match filetype with Some MD => true | _ => false end then
    file_content <- read ;;
    decoded_content <- call (optional_decode lib file_content) ;;
    ret decoded_content
  else if negb (is_supported filetype) then
    raise (_create_parse_error remote_file (_get_file_type_error_message filetype))
  else
    seek 0 ;;;
    _ <- read ;;
    seek 0 ;;;
    match filetype with
    | Some PDF =>
        partition_and_render remote_file
          (content <- read ;;
           seek 0 ;;;
           fun f => (partition_pdf lib content, f))
    | Some DOCX =>
        partition_and_render remote_file (partition_stream (partition_docx lib))
    | Some PPTX =>
        partition_and_render remote_file (partition_stream (partition_pptx lib))
    | _ => raise (Exception "local variable 'elements' referenced before assignment")
    end.

Definition _extract_format (config : FileBasedStreamConfig)
    : Result UnstructuredFormat :=
  match format config with
  | Unstructured_format f => inr f
  | Other_format repr => inl (ValueError ("Invalid format config: " ++ repr))
  end.

(** A schema: property name to its attributes, in the order of the
    dictionary literal. *)
Definition SchemaType : Type := list (string * list (string * string)).

Definition schema : SchemaType :=
  [ ("content",
     [ ("type", "string");
       ("description",
        "Content of the file as markdown. Might be null if the file could not be parsed") ]);
    ("document_key",
     [ ("type", "string");
       ("description", "Unique identifier of the document, e.g. the file path") ]);
    ("_ab_source_file_parse_error",
     [ ("type", "string");
       ("description",
        "Error message if the file could not be parsed even though the file is supported") ]) ].

Definition infer_schema (config : FileBasedStreamConfig) (file : RemoteFile)
    (stream_reader : AbstractFileBasedStreamReader) : Result SchemaType :=
  match _extract_format config with
  | inl e => inl e
  | inr fmt =>
      let file_handle := open_file stream_reader file in
      match _get_filetype file file_handle with
      | (inl e, _) => inl e
      | (inr filetype, _) =>
          if negb (is_supported filetype) && negb (skip_unprocessable_files fmt)
          then inl (_create_parse_error file (_get_file_type_error_message filetype))
          else inr schema
      end
  end.

(** A record of the output stream; [None] is Python's [None]. *)
Record OutputRecord : Type := {
  content : option string;
  document_key : string;
  _ab_source_file_parse_error : option string
}.

(** What running the generator [parse_records] to its end produces: the
    records it yields, the warnings it logs and the exception it ends
    with, if any. *)
Record Run : Type := {
  yielded : list OutputRecord;
  warnings : list string;
  raised : option PyException
}.

Definition parse_records (config : FileBasedStreamConfig) (file : RemoteFile)
    (stream_reader : AbstractFileBasedStreamReader) : Run :=
  match _extract_format config with
  | inl e => {| yielded := []; warnings := []; raised := Some e |}
  | inr fmt =>
      let file_handle := open_file stream_reader file in
      match fst (_read_file file fmt file_handle) with
      | inr markdown =>
          {| yielded := [ {| content := Some markdown;
                             document_key := uri file;
                             _ab_source_file_parse_error := None |} ];
             warnings := [];
             raised := None |}
      | inl (RecordParseError filename message as e) =>
          if skip_unprocessable_files fmt then
            let exception_str := exception_str e in
            {| yielded := [ {| content := None;
                               document_key := uri file;
                               _ab_source_file_parse_error := Some exception_str |} ];
               warnings :=
                 [ "File " ++ uri file ++ " caused an error during parsing: "
                     ++ exception_str ++ ".";
                   "File " ++ uri file ++ " cannot be parsed. Skipping it." ];
               raised := None |}
          else {| yielded := []; warnings := []; raised := Some e |}
      | inl e => {| yielded := []; warnings := []; raised := Some e |}
      end
  end.

End Parser.

End UnstructuredParser.

Import UnstructuredParser.

(** ** Statement vocabulary *)

(** The configuration of a stream read with the unstructured format. *)
Definition unstructured_config (fmt : UnstructuredFormat) : FileBasedStreamConfig :=
  {| format := Unstructured_format fmt |}.

(** The type detection finds for a file the reader has just opened. *)
Definition detected_filetype (lib : Unstructured)
    (stream_reader : AbstractFileBasedStreamReader) (file : RemoteFile)
    : Result (option FileType) :=
  fst (_get_filetype lib file (open_file stream_reader file)).

(** The extraction routine the parser delegates a binary type to. *)
Definition extraction (lib : Unstructured) (t : FileType)
    : option (list Byte.byte -> Result (list Element)) :=
  match t with
  | PDF => Some (partition_pdf lib)
  | DOCX => Some (partition_docx lib)
  | PPTX => Some (partition_pptx lib)
  | _ => None
  end.

(** The record emitted in place of a failure. *)
Definition degraded_record (file : RemoteFile) (error : string) : OutputRecord :=
  {| content := None;
     document_key := uri file;
     _ab_source_file_parse_error := Some error |}.

(** Exactly one of content and parse error is set. *)
Definition exactly_one_non_null (r : OutputRecord) : Prop :=
  (content r <> None /\ _ab_source_file_parse_error r = None)
  \/ (content r = None /\ _ab_source_file_parse_error r <> None).

(** The frame the specification claims for type detection: position at the
    start, nothing else touched. *)
Definition detection_is_read_only (file file' : IOBase) : Prop :=
  pos file' = 0 /\ data file' = data file /\ name file' = name file.

(** The [name] attribute after [file.name = None] was attempted. *)
Definition cleared_name (file : IOBase) : option (option string) :=
  match name file with
  | Some _ => Some None
  | None => None
  end.

(** The stream after [if hasattr(file, "name"): file.name = None]. *)
Definition with_cleared_name (file : IOBase) : IOBase :=
  {| data := data file; pos := pos file; name := cleared_name file |}.

(** What the [try] block makes of the answer of a partition function. *)
Definition rendered_or_wrapped (remote_file : RemoteFile)
    (parsed : Result (list Element)) : Result string :=
  match parsed with
  | inl e => inl (_create_parse_error remote_file (exception_str e))
  | inr elements => inr (_render_markdown elements)
  end.

(** ** Sample environments *)

(** A strict decoder, standing for [x.decode("utf-8")] of the unit tests on
    its ASCII part: bytes below 128 decode one character each, any other
    byte makes it raise. *)
Definition decode_strict (content : list Byte.byte) : LibraryResult string :=
  if forallb (fun b => Nat.ltb (Byte.to_nat b) 128) content
  then inr (string_of_list_byte content)
  else inl "'utf-8' codec can't decode bytes: invalid start byte".

(** The library as the unit tests mock it: detection answers [filetype]
    whatever it is asked, every partition function answers
    [parse_result], bytes are decoded strictly. *)
Definition mock_unstructured (filetype : FileType)
    (parse_result : Result (list Element)) : Unstructured :=
  {| STR_TO_FILETYPE := fun _ => None;
     detect_filetype_filename := fun _ => inr (Some filetype);
     detect_filetype_file := fun _ => inr (Some filetype);
     detect_filetype_tell := fun file => length (data file);
     partition_pdf := fun _ => parse_result;
     partition_docx := fun _ => parse_result;
     partition_pptx := fun _ => parse_result;
     optional_decode := decode_strict |}.

(** A library that knows one MIME type and one file name, and otherwise
    looks for the [%PDF] signature in the first four bytes. *)
Definition sample_unstructured : Unstructured :=
  {| STR_TO_FILETYPE :=
       fun m => if String.eqb m "text/markdown" then Some MD else None;
     detect_filetype_filename :=
       fun filename =>
         if String.eqb filename "slides.pptx" then inr (Some PPTX) else inr (Some UNK);
     detect_filetype_file :=
       fun file =>
         if String.eqb (string_of_list_byte (firstn 4 (skipn (pos file) (data file))))
              "%PDF"
         then inr (Some PDF) else inr (Some TXT);
     detect_filetype_tell :=
       fun file => Nat.min (pos file + 4) (Nat.max (pos file) (length (data file)));
     partition_pdf := fun _ => inr [Text "pdf"];
     partition_docx := fun _ => inr [Text "docx"];
     partition_pptx := fun _ => inr [Text "pptx"];
     optional_decode := decode_strict |}.

Definition FILE_URI : string := "path/to/file.xyz".

Definition fake_file : RemoteFile :=
  {| uri := FILE_URI; last_modified := 0; mime_type := None |}.

(** A reader whose every file holds [read_data] and has a [name]. *)
Definition mock_reader (read_data : string) : AbstractFileBasedStreamReader :=
  {| file_bytes := fun _ => list_byte_of_string read_data;
     file_name := fun file => Some (Some (uri file)) |}.

Definition skipping : UnstructuredFormat := {| skip_unprocessable_files := true |}.
Definition failing : UnstructuredFormat := {| skip_unprocessable_files := false |}.

(** Three files, one per detection strategy of [sample_unstructured], and a
    stream holding a PDF. *)
Definition markdown_by_mime : RemoteFile :=
  {| uri := "blob-0001"; last_modified := 0; mime_type := Some "text/markdown" |}.

Definition slides_by_name : RemoteFile :=
  {| uri := "slides.pptx"; last_modified := 0;
     mime_type := Some "application/octet-stream" |}.

Definition pdf_by_content : RemoteFile :=
  {| uri := "blob-0002"; last_modified := 0; mime_type := None |}.

Definition pdf_stream : IOBase :=
  {| data := list_byte_of_string "%PDF-1.4"; pos := 0; name := Some (Some "blob-0002") |}.

(** The document of the unit tests. *)
Definition sample_elements : list Element :=
  [ Title None "heading"; Text "This is the text";
    ListItem "This is a list item"; Formula "This is a formula" ].

(** ** Further vocabulary and samples *)

(** [el.text] when the element has the attribute. *)
Definition element_text (el : Element) : option string :=
  match el with
  | Title _ text | ListItem text | Formula text | Text text => Some text
  | NoText => None
  end.

(** The two warnings [parse_records] logs around a degraded record. *)
Definition skip_warnings (file : RemoteFile) (error : string) : list string :=
  [ "File " ++ uri file ++ " caused an error during parsing: " ++ error ++ ".";
    "File " ++ uri file ++ " cannot be parsed. Skipping it." ].

(** A reader whose every file is the single byte 0xff, which is not
    UTF-8. *)
Definition undecodable_reader : AbstractFileBasedStreamReader :=
  {| file_bytes := fun _ => [Byte.xff];
     file_name := fun file => Some (Some (uri file)) |}.

(** A library whose name-based detection raises. *)
Definition raising_unstructured : Unstructured :=
  {| STR_TO_FILETYPE := fun _ => None;
     detect_filetype_filename := fun _ => inl "expected str, bytes or os.PathLike object";
     detect_filetype_file := fun _ => inr (Some TXT);
     detect_filetype_tell := fun file => length (data file);
     partition_pdf := fun _ => inr [];
     partition_docx := fun _ => inr [];
     partition_pptx := fun _ => inr [];
     optional_decode := decode_strict |}.

(** A configuration of another format, as the CSV parser would get it. *)
Definition csv_config : FileBasedStreamConfig :=
  {| format := Other_format "CsvFormat()" |}.

(** A Markdown stream whose first line has already been read. *)
Definition markdown_stream_after_title : IOBase :=
  {| data := list_byte_of_string ("# title" ++ LF ++ "body");
     pos := 8;
     name := None |}.

(** The PDF stream left at its end by an earlier reader. *)
Definition pdf_stream_at_end : IOBase :=
  {| data := data pdf_stream; pos := 8; name := name pdf_stream |}.

(** * Properties *)

(** ** The unit tests of the parser, replayed on the model *)

Example test_parse_records_markdown :
  parse_records (mock_unstructured MD (inr [])) (unstructured_config failing)
    fake_file (mock_reader "test")
  = {| yielded := [ {| content := Some "test"; document_key := FILE_URI;
                       _ab_source_file_parse_error := None |} ];
       warnings := []; raised := None |}.
Proof. reflexivity. Qed.

Example test_parse_records_wrong_format :
  raised (parse_records (mock_unstructured CSV (inr [])) (unstructured_config failing)
            fake_file (mock_reader "None"))
  = Some (RecordParseError FILE_URI
            "File type FileType.CSV is not supported. Supported file types are FileType.MD, FileType.PDF, FileType.DOCX, FileType.PPTX").
Proof. reflexivity. Qed.

Example test_parse_records_skip_unprocessable :
  yielded (parse_records (mock_unstructured CSV (inr [])) (unstructured_config skipping)
             fake_file (mock_reader "None"))
  = [ degraded_record fake_file
        ("Error parsing record. This could be due to a mismatch between the config's file type and the actual file type, or because the file or record is not parseable. Contact Support if you need assistance."
           ++ LF ++ "filename=path/to/file.xyz message=File type FileType.CSV is not supported. Supported file types are FileType.MD, FileType.PDF, FileType.DOCX, FileType.PPTX") ].
Proof. reflexivity. Qed.

Example test_parse_records_pdf :
  yielded (parse_records (mock_unstructured PDF (inr sample_elements))
             (unstructured_config failing) fake_file (mock_reader "pdf"))
  = [ {| content := Some ("# heading" ++ LF ++ LF ++ "This is the text" ++ LF ++ LF
                            ++ "- This is a list item" ++ LF ++ LF
                            ++ "```" ++ LF ++ "This is a formula" ++ LF ++ "```");
         document_key := FILE_URI;
         _ab_source_file_parse_error := None |} ].
Proof. reflexivity. Qed.

Example test_parse_records_multi_level_headings :
  yielded (parse_records
             (mock_unstructured PDF
                (inr [ Title (Some 1%Z) "first level heading";
                       Title (Some 2%Z) "second level heading" ]))
             (unstructured_config failing) fake_file (mock_reader "pdf"))
  = [ {| content := Some ("# first level heading" ++ LF ++ LF ++ "## second level heading");
         document_key := FILE_URI;
         _ab_source_file_parse_error := None |} ].
Proof. reflexivity. Qed.

Example test_parse_records_exception_during_parsing :
  yielded (parse_records (mock_unstructured DOCX (inl (Exception "weird parsing error")))
             (unstructured_config skipping) fake_file (mock_reader ""))
  = [ degraded_record fake_file
        ("Error parsing record. This could be due to a mismatch between the config's file type and the actual file type, or because the file or record is not parseable. Contact Support if you need assistance."
           ++ LF ++ "filename=path/to/file.xyz message=weird parsing error") ].
Proof. reflexivity. Qed.

Example test_infer_schema_wrong_format :
  infer_schema (mock_unstructured CSV (inr [])) (unstructured_config failing)
    fake_file (mock_reader "")
  = inl (RecordParseError FILE_URI
           "File type FileType.CSV is not supported. Supported file types are FileType.MD, FileType.PDF, FileType.DOCX, FileType.PPTX").
Proof. reflexivity. Qed.

Example test_infer_schema_wrong_format_skipping :
  infer_schema (mock_unstructured CSV (inr [])) (unstructured_config skipping)
    fake_file (mock_reader "")
  = inr schema.
Proof. reflexivity. Qed.

(** ** The Markdown renderer *)

Lemma heading_str_amended (category_depth : option Z) :
  str_mul "#" (depth_or_1 category_depth)
  = str_repeat "#" (spec_heading_level_amended category_depth).
Proof.
  destruct category_depth as [[| p | p] |]; reflexivity.
Qed.

Lemma convert_to_markdown_amended (el : Element) :
  _convert_to_markdown el = spec_render_element spec_heading_level_amended el.
Proof.
  destruct el; simpl; try reflexivity.
  now rewrite heading_str_amended.
Qed.

Lemma concat_spec_render (level : option Z -> nat) (elements : list Element) :
  String.concat (LF ++ LF) (map (spec_render_element level) elements)
  = spec_render level elements.
Proof.
  induction elements as [| el rest IH]; [reflexivity |].
  destruct rest as [| el' rest']; [reflexivity |].
  change (spec_render_element level el
            ++ (LF ++ LF)
            ++ String.concat (LF ++ LF) (map (spec_render_element level) (el' :: rest'))
          = spec_render_element level el ++ LF ++ LF ++ spec_render level (el' :: rest')).
  rewrite IH. reflexivity.
Qed.

(** C1, as stated, fails: a Title whose nesting depth is 0 is rendered with
    one ['#'], not with none ([0 or 1] is [1] in Python). *)
Lemma render_markdown_depth_zero :
  _render_markdown [Title (Some 0%Z) "heading"] = "# heading"
  /\ spec_render spec_heading_level [Title (Some 0%Z) "heading"] = " heading"
  /\ _render_markdown [Title (Some 0%Z) "heading"]
     <> spec_render spec_heading_level [Title (Some 0%Z) "heading"].
Proof.
  repeat split; try reflexivity. discriminate.
Qed.

(** C1 (amended): for every sequence of elements the renderer returns the
    per-element renderings with a blank line between consecutive ones,
    where a Title renders as one ['#'] per unit of its nesting depth (a
    single ['#'] if the depth is absent or zero), a space and its text; a
    ListItem as ["- "] and its text; a Formula as a fenced code block; any
    other element with text as that text; an element without text as the
    empty string.  The document of the unit tests renders as the
    specification says, and depths 1 and 2 give ['#'] and ['##']. *)
Theorem render_markdown_spec (elements : list Element) :
  _render_markdown elements = spec_render spec_heading_level_amended elements
  /\ _render_markdown [Title None "heading"; Text "x"; ListItem "y"; Formula "z"]
     = "# heading" ++ LF ++ LF ++ "x" ++ LF ++ LF ++ "- y" ++ LF ++ LF
         ++ "```" ++ LF ++ "z" ++ LF ++ "```"
  /\ (forall text, _convert_to_markdown (Title (Some 1%Z) text) = "# " ++ text)
  /\ (forall text, _convert_to_markdown (Title (Some 2%Z) text) = "## " ++ text).
Proof.
  split; [| repeat split; reflexivity].
  unfold _render_markdown.
  rewrite <- concat_spec_render.
  f_equal. apply map_ext. exact convert_to_markdown_amended.
Qed.

(** ** Type detection *)

(** The outcomes of [_get_filetype], strategy by strategy. *)
Lemma get_filetype_cases (lib : Unstructured) (remote_file : RemoteFile) (file : IOBase) :
  _get_filetype lib remote_file file =
    match mime_filetype lib remote_file with
    | Some t => (inr (Some t), file)
    | None =>
        match detect_filetype_filename lib (uri remote_file) with
        | inl msg => (inl (Exception msg), with_cleared_name file)
        | inr file_type =>
            if is_known file_type
            then (inr file_type, with_cleared_name file)
            else
              match detect_filetype_file lib (with_cleared_name file) with
              | inl msg =>
                  (inl (Exception msg),
                   {| data := data file;
                      pos := detect_filetype_tell lib (with_cleared_name file);
                      name := cleared_name file |})
              | inr t =>
                  (inr t, {| data := data file; pos := 0; name := cleared_name file |})
              end
        end
    end.
Proof.
  unfold _get_filetype.
  destruct (mime_filetype lib remote_file) as [t |]; [reflexivity |].
  unfold bind, clear_name, call, detect_filetype_of_stream, with_cleared_name, cleared_name.
  cbn.
  destruct (detect_filetype_filename lib (uri remote_file)) as [msg | file_type];
    [reflexivity |].
  cbn. destruct (is_known file_type); [reflexivity |].
  cbn. destruct (detect_filetype_file lib _); reflexivity.
Qed.

(** Detection leaves the bytes alone. *)
Lemma read_after_detection (lib : Unstructured) (remote_file : RemoteFile)
    (file : IOBase) :
  data (snd (_get_filetype lib remote_file file)) = data file.
Proof.
  rewrite get_filetype_cases.
  destruct (mime_filetype lib remote_file); [reflexivity |].
  destruct (detect_filetype_filename lib (uri remote_file)) as [msg | file_type];
    [reflexivity |].
  destruct (is_known file_type); [reflexivity |].
  destruct (detect_filetype_file lib _); reflexivity.
Qed.

(** When detection returns on a stream at its start, the stream is at its
    start. *)
Lemma get_filetype_keeps_start (lib : Unstructured) (remote_file : RemoteFile)
    (file : IOBase) (answer : option FileType) :
  pos file = 0 ->
  fst (_get_filetype lib remote_file file) = inr answer ->
  pos (snd (_get_filetype lib remote_file file)) = 0.
Proof.
  intros Hpos. rewrite get_filetype_cases.
  destruct (mime_filetype lib remote_file); [auto |].
  destruct (detect_filetype_filename lib (uri remote_file)) as [msg | file_type];
    [discriminate |].
  destruct (is_known file_type); [auto |].
  destruct (detect_filetype_file lib _); [discriminate | reflexivity].
Qed.

Lemma mime_filetype_recognized (lib : Unstructured) (remote_file : RemoteFile)
    (m : string) (t : FileType) :
  mime_type remote_file = Some m -> m <> "" -> STR_TO_FILETYPE lib m = Some t ->
  mime_filetype lib remote_file = Some t.
Proof.
  intros Hm Hne Ht. unfold mime_filetype. rewrite Hm.
  destruct (String.eqb_spec m ""); [contradiction | exact Ht].
Qed.

Lemma mime_filetype_unrecognized (lib : Unstructured) (remote_file : RemoteFile) :
  (forall m, mime_type remote_file = Some m -> m = "" \/ STR_TO_FILETYPE lib m = None) ->
  mime_filetype lib remote_file = None.
Proof.
  intros H. unfold mime_filetype.
  destruct (mime_type remote_file) as [m |]; [| reflexivity].
  destruct (String.eqb_spec m ""); [reflexivity |].
  destruct (H m eq_refl); [contradiction | assumption].
Qed.

Lemma is_known_iff (file_type : option FileType) :
  is_known file_type = true <-> exists t, file_type = Some t /\ t <> UNK.
Proof.
  unfold is_known, FileType_eqb. split.
  - destruct file_type as [t |]; [| discriminate].
    destruct (FileType_eq_dec t UNK); [discriminate |]. eauto.
  - intros [t [-> Ht]]. destruct (FileType_eq_dec t UNK); [contradiction | reflexivity].
Qed.

Lemma is_known_false_iff (file_type : option FileType) :
  is_known file_type = false <-> file_type = None \/ file_type = Some UNK.
Proof.
  unfold is_known, FileType_eqb. split.
  - destruct file_type as [t |]; [| now left].
    destruct (FileType_eq_dec t UNK); [intros _; right; congruence | discriminate].
  - intros [-> | ->]; reflexivity.
Qed.

(** C6: type detection resolves in order.  A supplied (non-empty) MIME type
    found in [STR_TO_FILETYPE] decides, and the stream is returned as it
    was; otherwise a type other than [UNK] found from the URI decides, the
    answer is that of name-based detection and bytes and read position of
    the stream are untouched; otherwise the outcome is what sniffing the
    stream gives. *)
Theorem get_filetype_resolution_order (lib : Unstructured) (remote_file : RemoteFile)
    (file : IOBase) :
  (forall m t,
      mime_type remote_file = Some m -> m <> "" -> STR_TO_FILETYPE lib m = Some t ->
      _get_filetype lib remote_file file = (inr (Some t), file))
  /\ ((forall m, mime_type remote_file = Some m ->
                 m = "" \/ STR_TO_FILETYPE lib m = None) ->
      forall t,
        detect_filetype_filename lib (uri remote_file) = inr (Some t) -> t <> UNK ->
        fst (_get_filetype lib remote_file file) = inr (Some t)
        /\ data (snd (_get_filetype lib remote_file file)) = data file
        /\ pos (snd (_get_filetype lib remote_file file)) = pos file)
  /\ ((forall m, mime_type remote_file = Some m ->
                 m = "" \/ STR_TO_FILETYPE lib m = None) ->
      (detect_filetype_filename lib (uri remote_file) = inr None
       \/ detect_filetype_filename lib (uri remote_file) = inr (Some UNK)) ->
      fst (_get_filetype lib remote_file file)
      = from_library (detect_filetype_file lib (with_cleared_name file))).
Proof.
  rewrite get_filetype_cases. split; [| split].
  - intros m t Hm Hne Ht.
    now rewrite (mime_filetype_recognized lib remote_file m t Hm Hne Ht).
  - intros Hmime t Hname Hunk.
    rewrite (mime_filetype_unrecognized lib remote_file Hmime), Hname.
    assert (Hk : is_known (Some t) = true) by (apply is_known_iff; eauto).
    rewrite Hk. cbn. auto.
  - intros Hmime Hname.
    rewrite (mime_filetype_unrecognized lib remote_file Hmime).
    destruct Hname as [-> | ->]; cbn;
      destruct (detect_filetype_file lib (with_cleared_name file)); reflexivity.
Qed.

Lemma get_filetype_resolution_order_witness :
  _get_filetype sample_unstructured markdown_by_mime pdf_stream
    = (inr (Some MD), pdf_stream)
  /\ (fst (_get_filetype sample_unstructured slides_by_name pdf_stream) = inr (Some PPTX)
      /\ data (snd (_get_filetype sample_unstructured slides_by_name pdf_stream))
         = data pdf_stream
      /\ pos (snd (_get_filetype sample_unstructured slides_by_name pdf_stream))
         = pos pdf_stream)
  /\ fst (_get_filetype sample_unstructured pdf_by_content pdf_stream) = inr (Some PDF).
Proof.
  split; [| split].
  - apply (proj1 (get_filetype_resolution_order sample_unstructured markdown_by_mime
                    pdf_stream) "text/markdown" MD);
      [reflexivity | discriminate | reflexivity].
  - apply (proj1 (proj2 (get_filetype_resolution_order sample_unstructured slides_by_name
                           pdf_stream))).
    + intros m Hm. right. injection Hm as <-. reflexivity.
    + reflexivity.
    + discriminate.
  - apply (proj2 (proj2 (get_filetype_resolution_order sample_unstructured pdf_by_content
                           pdf_stream))).
    + intros m Hm. discriminate Hm.
    + right. reflexivity.
Defined.

(** C7, as stated, fails: on the name and content paths detection resets
    the [name] attribute of the stream, so an attribute other than the read
    position is modified. *)
Lemma get_filetype_clears_name :
  name (snd (_get_filetype sample_unstructured slides_by_name pdf_stream)) = Some None
  /\ name pdf_stream = Some (Some "blob-0002")
  /\ ~ detection_is_read_only pdf_stream
         (snd (_get_filetype sample_unstructured slides_by_name pdf_stream)).
Proof.
  repeat split.
  intros [_ [_ Hname]]. discriminate Hname.
Qed.

(** C7 (amended): after [_get_filetype] returns the bytes of the stream are
    unchanged; the read position is at the start after content sniffing and
    where it was on the MIME and name paths, so a stream that was at its
    start is at its start on every path; the [name] attribute is untouched
    on the MIME path and, on the two other paths, set to [None] when the
    stream has one.  (When the library raises, bytes and [name] are as
    stated and the position is where the library left it.) *)
Theorem get_filetype_frame (lib : Unstructured) (remote_file : RemoteFile)
    (file : IOBase) :
  let file' := snd (_get_filetype lib remote_file file) in
  data file' = data file
  /\ (forall answer,
        fst (_get_filetype lib remote_file file) = inr answer ->
        pos file = 0 -> pos file' = 0)
  /\ pos file' =
       match mime_filetype lib remote_file with
       | Some _ => pos file
       | None =>
           match detect_filetype_filename lib (uri remote_file) with
           | inl _ => pos file
           | inr file_type =>
               if is_known file_type then pos file
               else
                 match detect_filetype_file lib (with_cleared_name file) with
                 | inr _ => 0
                 | inl _ => detect_filetype_tell lib (with_cleared_name file)
                 end
           end
       end
  /\ name file' =
       match mime_filetype lib remote_file with
       | Some _ => name file
       | None => cleared_name file
       end.
Proof.
  cbv zeta. rewrite get_filetype_cases.
  destruct (mime_filetype lib remote_file); [cbn; auto |].
  destruct (detect_filetype_filename lib (uri remote_file)) as [msg | file_type];
    [cbn; auto |].
  destruct (is_known file_type); [cbn; auto |].
  destruct (detect_filetype_file lib _); cbn; repeat split; auto; discriminate.
Qed.

Lemma get_filetype_frame_witness :
  pos (snd (_get_filetype sample_unstructured pdf_by_content pdf_stream)) = 0.
Proof.
  apply (proj1 (proj2 (get_filetype_frame sample_unstructured pdf_by_content pdf_stream))
           (Some PDF));
    reflexivity.
Defined.

(** ** Reading a file *)

(** The outcome of [_read_file] on a stream at its start, by detected
    type. *)
Lemma read_file_cases (lib : Unstructured) (remote_file : RemoteFile)
    (fmt : UnstructuredFormat) (file : IOBase) (filetype : option FileType) :
  pos file = 0 ->
  fst (_get_filetype lib remote_file file) = inr filetype ->
  fst (_read_file lib remote_file fmt file) =
    match filetype with
    | Some MD => from_library (optional_decode lib (data file))
    | Some PDF => rendered_or_wrapped remote_file (partition_pdf lib (data file))
    | Some DOCX => rendered_or_wrapped remote_file (partition_docx lib (data file))
    | Some PPTX => rendered_or_wrapped remote_file (partition_pptx lib (data file))
    | _ => inl (_create_parse_error remote_file (_get_file_type_error_message filetype))
    end.
Proof.
  intros Hpos Hdetect.
  pose proof (read_after_detection lib remote_file file) as Hdata.
  pose proof (get_filetype_keeps_start lib remote_file file filetype Hpos Hdetect)
    as Hstart.
  unfold _read_file, bind.
  destruct (_get_filetype lib remote_file file) as [[e | t] file'] eqn:Hget;
    cbn in Hdetect, Hdata, Hstart; [discriminate |].
  injection Hdetect as ->.
  destruct file' as [bytes position nm]; cbn in Hdata, Hstart; subst bytes position.
  destruct filetype as [[] |]; try reflexivity; cbn;
    unfold partition_and_render, partition_stream, bind, rendered_or_wrapped, call; cbn;
    match goal with
    | |- context [?p lib (data file)] => destruct (p lib (data file)); reflexivity
    end.
Qed.

(** When detection raises, so does [_read_file], with the same exception. *)
Lemma read_file_detection_raises (lib : Unstructured) (remote_file : RemoteFile)
    (fmt : UnstructuredFormat) (file : IOBase) (e : PyException) :
  fst (_get_filetype lib remote_file file) = inl e ->
  fst (_read_file lib remote_file fmt file) = inl e.
Proof.
  intros Hdetect. unfold _read_file, bind.
  destruct (_get_filetype lib remote_file file) as [[e' | t] file'];
    cbn in Hdetect |- *; [| discriminate].
  injection Hdetect as ->. reflexivity.
Qed.

(** What detection raises is an exception of the library. *)
Lemma get_filetype_raises_library_error (lib : Unstructured) (remote_file : RemoteFile)
    (file : IOBase) (e : PyException) :
  fst (_get_filetype lib remote_file file) = inl e ->
  exists msg, e = Exception msg.
Proof.
  rewrite get_filetype_cases.
  destruct (mime_filetype lib remote_file); [discriminate |].
  destruct (detect_filetype_filename lib (uri remote_file)) as [msg | file_type];
    [cbn; intros H; injection H as <-; eauto |].
  destruct (is_known file_type); [discriminate |].
  destruct (detect_filetype_file lib _) as [msg | t];
    [cbn; intros H; injection H as <-; eauto | discriminate].
Qed.

Lemma not_supported_cases (filetype : option FileType) :
  ~ In filetype (map Some _supported_file_types) ->
  match filetype with
  | Some MD | Some PDF | Some DOCX | Some PPTX => False
  | _ => True
  end.
Proof.
  intros Hnot. destruct filetype as [[] |]; try exact I; apply Hnot; cbn; tauto.
Qed.

(** An unsupported type makes [_read_file] raise the unsupported-type
    error. *)
Lemma read_file_unsupported (lib : Unstructured) (remote_file : RemoteFile)
    (fmt : UnstructuredFormat) (file : IOBase) (filetype : option FileType) :
  pos file = 0 ->
  fst (_get_filetype lib remote_file file) = inr filetype ->
  ~ In filetype (map Some _supported_file_types) ->
  fst (_read_file lib remote_file fmt file)
  = inl (RecordParseError (uri remote_file) (_get_file_type_error_message filetype)).
Proof.
  intros Hpos Hdetect Hnot.
  rewrite (read_file_cases lib remote_file fmt file filetype Hpos Hdetect).
  apply not_supported_cases in Hnot.
  destruct filetype as [[] |]; first [contradiction | reflexivity].
Qed.

(** ** Occurrences in the error text *)

Lemma append_empty_r (s : string) : s ++ "" = s.
Proof. induction s as [| c s IH]; cbn; [reflexivity | now rewrite IH]. Qed.

Lemma append_assoc (a b c : string) : (a ++ b) ++ c = a ++ b ++ c.
Proof. induction a as [| x a IH]; cbn; [reflexivity | now rewrite IH]. Qed.

Lemma contains_refl (s : string) : contains s s.
Proof. exists "", "". cbn. now rewrite append_empty_r. Qed.

Lemma contains_append_r (a s sub : string) : contains s sub -> contains (a ++ s) sub.
Proof.
  intros [pre [post ->]]. exists (a ++ pre), post. now rewrite append_assoc.
Qed.

Lemma contains_append_l (s b sub : string) : contains s sub -> contains (s ++ b) sub.
Proof.
  intros [pre [post ->]]. exists pre, (post ++ b). now rewrite !append_assoc.
Qed.

Create HintDb contains.

#[local] Hint Resolve contains_refl contains_append_r contains_append_l : contains.

(** The text of a parse error ends with its message. *)
Lemma RecordParseError_str_message (filename message : string) :
  contains (RecordParseError_str filename message) message.
Proof.
  unfold RecordParseError_str. auto 10 with contains.
Qed.

(** The unsupported-type message names the type and the supported ones. *)
Lemma file_type_error_message_names (filetype : option FileType) :
  contains (_get_file_type_error_message filetype) (filetype_str filetype)
  /\ contains (_get_file_type_error_message filetype)
       "FileType.MD, FileType.PDF, FileType.DOCX, FileType.PPTX".
Proof.
  unfold _get_file_type_error_message. split.
  - auto 10 with contains.
  - change (String.concat ", " (map FileType_str _supported_file_types))
      with "FileType.MD, FileType.PDF, FileType.DOCX, FileType.PPTX".
    auto 10 with contains.
Qed.

Lemma contains_trans (s mid sub : string) :
  contains s mid -> contains mid sub -> contains s sub.
Proof.
  intros [pre [post ->]] Hsub.
  apply contains_append_r, contains_append_l, Hsub.
Qed.

(** ** Record parsing *)

(** C5, as stated, fails: the decoder is called outside the [try] and
    [parse_records] catches parse errors only, so for a Markdown file whose
    bytes do not decode no record is yielded and the exception of the
    decoder propagates, with skipping enabled too. *)
Lemma parse_records_markdown_undecodable :
  detected_filetype (mock_unstructured MD (inr [])) undecodable_reader fake_file
  = inr (Some MD)
  /\ parse_records (mock_unstructured MD (inr [])) (unstructured_config skipping)
       fake_file undecodable_reader
     = {| yielded := []; warnings := [];
          raised := Some (Exception "'utf-8' codec can't decode bytes: invalid start byte") |}
  /\ ~ (exists r,
          yielded (parse_records (mock_unstructured MD (inr []))
                     (unstructured_config skipping) fake_file undecodable_reader)
          = [r]).
Proof.
  split; [reflexivity |]. split; [reflexivity |].
  intros [r Hr]. discriminate Hr.
Qed.

(** C5 (amended): for every file detected as Markdown whose bytes the
    decoder accepts, [parse_records] yields exactly one record; its content
    is the decoded bytes of the whole file and its parse-error field is
    null. *)
Theorem parse_records_markdown (lib : Unstructured) (fmt : UnstructuredFormat)
    (file : RemoteFile) (stream_reader : AbstractFileBasedStreamReader)
    (decoded_content : string) :
  detected_filetype lib stream_reader file = inr (Some MD) ->
  optional_decode lib (file_bytes stream_reader file) = inr decoded_content ->
  parse_records lib (unstructured_config fmt) file stream_reader
  = {| yielded :=
         [ {| content := Some decoded_content;
              document_key := uri file;
              _ab_source_file_parse_error := None |} ];
       warnings := [];
       raised := None |}.
Proof.
  intros Hdetect Hdecode. unfold parse_records. cbn.
  rewrite (read_file_cases lib file fmt (open_file stream_reader file) (Some MD)
             eq_refl Hdetect).
  cbn [open_file data]. rewrite Hdecode. reflexivity.
Qed.

Lemma parse_records_markdown_witness :
  parse_records sample_unstructured (unstructured_config failing)
    markdown_by_mime (mock_reader "# notes")
  = {| yielded :=
         [ {| content := Some "# notes"; document_key := "blob-0001";
              _ab_source_file_parse_error := None |} ];
       warnings := [];
       raised := None |}.
Proof.
  apply (parse_records_markdown sample_unstructured failing markdown_by_mime
           (mock_reader "# notes") "# notes"); reflexivity.
Defined.

(** C3: for every file whose detected type is none of Markdown, PDF, DOCX
    and PPTX, with skipping enabled, [parse_records] yields exactly one
    record, with null content and an error string that names the detected
    type and the supported types, and ends without an exception. *)
Theorem parse_records_unsupported_skipping (lib : Unstructured)
    (fmt : UnstructuredFormat) (file : RemoteFile)
    (stream_reader : AbstractFileBasedStreamReader) (filetype : option FileType) :
  detected_filetype lib stream_reader file = inr filetype ->
  ~ In filetype [Some MD; Some PDF; Some DOCX; Some PPTX] ->
  skip_unprocessable_files fmt = true ->
  exists error : string,
    yielded (parse_records lib (unstructured_config fmt) file stream_reader)
      = [ degraded_record file error ]
    /\ raised (parse_records lib (unstructured_config fmt) file stream_reader) = None
    /\ contains error (filetype_str filetype)
    /\ contains error "FileType.MD, FileType.PDF, FileType.DOCX, FileType.PPTX".
Proof.
  intros Hdetect Hnot Hskip.
  exists (RecordParseError_str (uri file) (_get_file_type_error_message filetype)).
  unfold parse_records. cbn.
  rewrite (read_file_unsupported lib file fmt (open_file stream_reader file) filetype
             eq_refl Hdetect Hnot).
  rewrite Hskip. cbn.
  destruct (file_type_error_message_names filetype) as [Htype Hsupported].
  split; [reflexivity | split; [reflexivity | split]].
  - exact (contains_trans _ _ _ (RecordParseError_str_message _ _) Htype).
  - exact (contains_trans _ _ _ (RecordParseError_str_message _ _) Hsupported).
Qed.

Lemma parse_records_unsupported_skipping_witness :
  exists error : string,
    yielded (parse_records (mock_unstructured CSV (inr [])) (unstructured_config skipping)
               fake_file (mock_reader "a,b"))
      = [ degraded_record fake_file error ]
    /\ raised (parse_records (mock_unstructured CSV (inr [])) (unstructured_config skipping)
                 fake_file (mock_reader "a,b")) = None
    /\ contains error "FileType.CSV"
    /\ contains error "FileType.MD, FileType.PDF, FileType.DOCX, FileType.PPTX".
Proof.
  apply (parse_records_unsupported_skipping (mock_unstructured CSV (inr [])) skipping
           fake_file (mock_reader "a,b") (Some CSV)).
  - reflexivity.
  - cbn. intros [H | [H | [H | [H | []]]]]; discriminate H.
  - reflexivity.
Defined.

(** C4: for every file whose detected type is none of Markdown, PDF, DOCX
    and PPTX, with skipping disabled, [infer_schema] raises the
    unsupported-type parse error instead of returning a schema and
    [parse_records] raises it without yielding a record. *)
Theorem unsupported_not_skipping_raises (lib : Unstructured)
    (fmt : UnstructuredFormat) (file : RemoteFile)
    (stream_reader : AbstractFileBasedStreamReader) (filetype : option FileType) :
  detected_filetype lib stream_reader file = inr filetype ->
  ~ In filetype [Some MD; Some PDF; Some DOCX; Some PPTX] ->
  skip_unprocessable_files fmt = false ->
  let error :=
    RecordParseError (uri file) (_get_file_type_error_message filetype) in
  infer_schema lib (unstructured_config fmt) file stream_reader = inl error
  /\ parse_records lib (unstructured_config fmt) file stream_reader
     = {| yielded := []; warnings := []; raised := Some error |}.
Proof.
  intros Hdetect Hnot Hskip error. split.
  - unfold infer_schema. cbn.
    unfold detected_filetype in Hdetect.
    destruct (_get_filetype lib file (open_file stream_reader file)) as [r file'].
    cbn in Hdetect. subst r. rewrite Hskip.
    apply not_supported_cases in Hnot.
    destruct filetype as [[] |]; first [contradiction | reflexivity].
  - unfold parse_records. cbn.
    rewrite (read_file_unsupported lib file fmt (open_file stream_reader file) filetype
               eq_refl Hdetect Hnot).
    now rewrite Hskip.
Qed.

Lemma unsupported_not_skipping_raises_witness :
  infer_schema (mock_unstructured CSV (inr [])) (unstructured_config failing)
    fake_file (mock_reader "a,b")
  = inl (RecordParseError FILE_URI (_get_file_type_error_message (Some CSV)))
  /\ parse_records (mock_unstructured CSV (inr [])) (unstructured_config failing)
       fake_file (mock_reader "a,b")
     = {| yielded := []; warnings := [];
          raised := Some (RecordParseError FILE_URI
                            (_get_file_type_error_message (Some CSV))) |}.
Proof.
  apply (unsupported_not_skipping_raises (mock_unstructured CSV (inr [])) failing
           fake_file (mock_reader "a,b") (Some CSV)).
  - reflexivity.
  - cbn. intros [H | [H | [H | [H | []]]]]; discriminate H.
  - reflexivity.
Defined.

(** C2: for every file detected as PDF, DOCX or PPTX whose extraction
    routine raises [e], [_read_file] raises the parse error that carries
    the URI of the file and [str(e)]; the text of that error contains
    [str(e)]; with skipping enabled [parse_records] yields exactly one
    record, with null content and that text as its error, and ends without
    an exception; with skipping disabled it yields nothing and the parse
    error propagates. *)
Theorem extraction_error_handling (lib : Unstructured) (fmt : UnstructuredFormat)
    (file : RemoteFile) (stream_reader : AbstractFileBasedStreamReader)
    (t : FileType) (partition : list Byte.byte -> Result (list Element))
    (e : PyException) :
  detected_filetype lib stream_reader file = inr (Some t) ->
  In t [PDF; DOCX; PPTX] ->
  extraction lib t = Some partition ->
  partition (file_bytes stream_reader file) = inl e ->
  let error := RecordParseError (uri file) (exception_str e) in
  fst (_read_file lib file fmt (open_file stream_reader file)) = inl error
  /\ contains (exception_str error) (exception_str e)
  /\ parse_records lib (unstructured_config fmt) file stream_reader
     = if skip_unprocessable_files fmt
       then {| yielded := [ degraded_record file (exception_str error) ];
               warnings :=
                 [ "File " ++ uri file ++ " caused an error during parsing: "
                     ++ exception_str error ++ ".";
                   "File " ++ uri file ++ " cannot be parsed. Skipping it." ];
               raised := None |}
       else {| yielded := []; warnings := []; raised := Some error |}.
Proof.
  intros Hdetect Hbinary Hpartition Hraises error.
  assert (Hread : fst (_read_file lib file fmt (open_file stream_reader file)) = inl error).
  { rewrite (read_file_cases lib file fmt (open_file stream_reader file) (Some t)
               eq_refl Hdetect).
    cbn in Hbinary.
    destruct Hbinary as [<- | [<- | [<- | []]]];
      cbn in Hpartition; injection Hpartition as <-;
      cbn [open_file data]; rewrite Hraises; reflexivity. }
  split; [exact Hread |].
  split; [apply RecordParseError_str_message |].
  unfold parse_records. cbn. rewrite Hread. reflexivity.
Qed.

Lemma extraction_error_handling_witness :
  parse_records (mock_unstructured DOCX (inl (Exception "weird parsing error")))
    (unstructured_config skipping) fake_file (mock_reader "")
  = {| yielded :=
         [ degraded_record fake_file
             (RecordParseError_str FILE_URI "weird parsing error") ];
       warnings :=
         [ "File " ++ FILE_URI ++ " caused an error during parsing: "
             ++ RecordParseError_str FILE_URI "weird parsing error" ++ ".";
           "File " ++ FILE_URI ++ " cannot be parsed. Skipping it." ];
       raised := None |}.
Proof.
  apply (extraction_error_handling
           (mock_unstructured DOCX (inl (Exception "weird parsing error")))
           skipping fake_file (mock_reader "") DOCX
           (fun _ => inl (Exception "weird parsing error"))
           (Exception "weird parsing error")).
  - reflexivity.
  - cbn. tauto.
  - reflexivity.
  - reflexivity.
Defined.

(** C9: every record [parse_records] yields has exactly one of its content
    and its parse-error field non-null. *)
Theorem parse_records_exactly_one_non_null (lib : Unstructured)
    (config : FileBasedStreamConfig) (file : RemoteFile)
    (stream_reader : AbstractFileBasedStreamReader) (r : OutputRecord) :
  In r (yielded (parse_records lib config file stream_reader)) ->
  exactly_one_non_null r.
Proof.
  unfold parse_records, exactly_one_non_null.
  destruct (_extract_format config) as [e | fmt]; [intros [] |].
  destruct (fst (_read_file lib file fmt (open_file stream_reader file)))
    as [[filename message | msg | msg] | markdown];
    try destruct (skip_unprocessable_files fmt); cbn;
    intros Hin; try contradiction;
    destruct Hin as [<- | []]; cbn;
    first [ left; split; [discriminate | reflexivity]
          | right; split; [reflexivity | discriminate] ].
Qed.

Lemma parse_records_exactly_one_non_null_witness :
  exactly_one_non_null
    {| content := Some "test"; document_key := FILE_URI;
       _ab_source_file_parse_error := None |}.
Proof.
  apply (parse_records_exactly_one_non_null (mock_unstructured MD (inr []))
           (unstructured_config failing) fake_file (mock_reader "test")).
  left. reflexivity.
Defined.

(** C10: every record [parse_records] yields for a file carries the URI of
    that file as its document key, and at most one record is yielded per
    file. *)
Theorem parse_records_document_key (lib : Unstructured)
    (config : FileBasedStreamConfig) (file : RemoteFile)
    (stream_reader : AbstractFileBasedStreamReader) :
  (forall r, In r (yielded (parse_records lib config file stream_reader)) ->
             document_key r = uri file)
  /\ length (yielded (parse_records lib config file stream_reader)) <= 1.
Proof.
  unfold parse_records.
  destruct (_extract_format config) as [e | fmt]; [cbn; split; [tauto | lia] |].
  destruct (fst (_read_file lib file fmt (open_file stream_reader file)))
    as [[filename message | msg | msg] | markdown];
    try destruct (skip_unprocessable_files fmt); cbn;
    (split; [| lia]); intros r Hin; try contradiction;
    destruct Hin as [<- | []]; reflexivity.
Qed.

Lemma parse_records_document_key_witness :
  document_key (degraded_record fake_file
                  (RecordParseError_str FILE_URI (_get_file_type_error_message (Some CSV))))
  = FILE_URI.
Proof.
  apply (proj1 (parse_records_document_key (mock_unstructured CSV (inr []))
                  (unstructured_config skipping) fake_file (mock_reader "a,b"))).
  left. reflexivity.
Defined.

(** ** Schema inference *)

(** C8: whenever [infer_schema] returns, which it does whenever the
    detected type is supported or skipping is enabled, it returns the same
    schema of three string fields: content, document key and parse
    error. *)
Theorem infer_schema_static (lib : Unstructured) (config : FileBasedStreamConfig)
    (file : RemoteFile) (stream_reader : AbstractFileBasedStreamReader) :
  (forall s, infer_schema lib config file stream_reader = inr s -> s = schema)
  /\ (forall fmt filetype,
        config = unstructured_config fmt ->
        detected_filetype lib stream_reader file = inr filetype ->
        In filetype [Some MD; Some PDF; Some DOCX; Some PPTX]
        \/ skip_unprocessable_files fmt = true ->
        infer_schema lib config file stream_reader = inr schema)
  /\ map fst schema = ["content"; "document_key"; "_ab_source_file_parse_error"]
  /\ (forall field, In field schema -> In ("type", "string") (snd field)).
Proof.
  split; [| split; [| split]].
  - intros s. unfold infer_schema.
    destruct (_extract_format config) as [e | fmt]; [discriminate |].
    destruct (_get_filetype lib file (open_file stream_reader file)) as [[e | t] file'];
      [discriminate |].
    destruct (negb (is_supported t) && negb (skip_unprocessable_files fmt));
      [discriminate | congruence].
  - intros fmt filetype -> Hdetect Hreturns.
    unfold infer_schema. cbn. unfold detected_filetype in Hdetect.
    destruct (_get_filetype lib file (open_file stream_reader file)) as [r file'].
    cbn in Hdetect. subst r.
    destruct Hreturns as [Hsupported | ->].
    + cbn in Hsupported.
      destruct Hsupported as [<- | [<- | [<- | [<- | []]]]]; reflexivity.
    + now rewrite andb_false_r.
  - reflexivity.
  - cbn. intros field [<- | [<- | [<- | []]]]; cbn; tauto.
Qed.

Lemma infer_schema_static_witness :
  infer_schema (mock_unstructured CSV (inr [])) (unstructured_config skipping)
    fake_file (mock_reader "a,b")
  = inr schema.
Proof.
  apply (proj1 (proj2 (infer_schema_static (mock_unstructured CSV (inr []))
                         (unstructured_config skipping) fake_file (mock_reader "a,b")))
           skipping (Some CSV)).
  - reflexivity.
  - reflexivity.
  - right. reflexivity.
Defined.

(** * Further properties of the parser *)

(** ** Structure of the rendered document *)

Lemma length_append (a b : string) :
  String.length (a ++ b) = String.length a + String.length b.
Proof. induction a as [| c a IH]; cbn; [reflexivity | now rewrite IH]. Qed.

Lemma render_markdown_cons (el : Element) (rest : list Element) :
  rest <> [] ->
  _render_markdown (el :: rest)
  = _convert_to_markdown el ++ LF ++ LF ++ _render_markdown rest.
Proof.
  destruct rest as [| el' rest']; [congruence | reflexivity].
Qed.

Lemma render_markdown_append (before after : list Element) :
  before <> [] -> after <> [] ->
  _render_markdown (before ++ after)
  = _render_markdown before ++ LF ++ LF ++ _render_markdown after.
Proof.
  intros Hbefore Hafter.
  induction before as [| el rest IH]; [congruence |].
  destruct rest as [| el' rest'].
  - cbn [app]. now rewrite render_markdown_cons.
  - change ((el :: el' :: rest') ++ after)%list
      with (el :: (el' :: rest') ++ after)%list.
    rewrite render_markdown_cons by discriminate.
    rewrite IH by discriminate.
    rewrite (render_markdown_cons el (el' :: rest')) by discriminate.
    now rewrite !append_assoc.
Qed.

(** Rendering distributes over concatenation: two non-empty sequences of
    elements render as their renderings with a blank line between them. *)
Theorem render_markdown_app (before after : list Element) :
  before <> [] -> after <> [] ->
  _render_markdown (before ++ after)
  = _render_markdown before ++ LF ++ LF ++ _render_markdown after.
Proof. exact (render_markdown_append before after). Qed.

Lemma render_markdown_app_witness :
  _render_markdown ([Title None "heading"; Text "x"] ++ [ListItem "y"; Formula "z"])
  = _render_markdown [Title None "heading"; Text "x"] ++ LF ++ LF
      ++ _render_markdown [ListItem "y"; Formula "z"].
Proof.
  apply render_markdown_app; discriminate.
Defined.

(** The rendered document is as long as its element renderings together,
    plus two characters for each gap between consecutive elements; the empty
    sequence renders to the empty string. *)
Theorem render_markdown_length (elements : list Element) :
  String.length (_render_markdown elements)
  = list_sum (map (fun el => String.length (_convert_to_markdown el)) elements)
    + 2 * (length elements - 1).
Proof.
  induction elements as [| el rest IH]; [reflexivity |].
  destruct rest as [| el' rest'].
  - cbn. lia.
  - rewrite render_markdown_cons by discriminate.
    rewrite !length_append, IH.
    change (String.length LF) with 1.
    unfold list_sum. cbn [map fold_right length]. lia.
Qed.

(** Nothing is escaped or dropped: the text of every element of the
    sequence occurs verbatim in the rendered document. *)
Theorem render_markdown_keeps_text (elements : list Element) (el : Element)
    (text : string) :
  In el elements -> element_text el = Some text ->
  contains (_render_markdown elements) text.
Proof.
  intros Hin Htext.
  assert (Hel : contains (_convert_to_markdown el) text).
  { destruct el; cbn in Htext; try discriminate; injection Htext as <-;
      unfold _convert_to_markdown; cbv zeta; auto 10 with contains. }
  clear Htext.
  induction elements as [| el0 rest IH]; [contradiction |].
  destruct rest as [| el' rest'].
  - destruct Hin as [<- | []]. exact Hel.
  - rewrite render_markdown_cons by discriminate.
    destruct Hin as [<- | Hin]; [auto with contains |].
    auto 10 with contains.
Qed.

Lemma render_markdown_keeps_text_witness :
  contains (_render_markdown sample_elements) "This is a list item".
Proof.
  apply (render_markdown_keeps_text sample_elements (ListItem "This is a list item")).
  - cbn. tauto.
  - reflexivity.
Defined.

(** The renderer flattens: a text element that holds an already rendered
    (non-empty) sequence is indistinguishable, in the output, from that
    sequence spliced in its place. *)
Theorem render_markdown_flattens (before inner after : list Element) :
  inner <> [] ->
  _render_markdown (before ++ Text (_render_markdown inner) :: after)
  = _render_markdown (before ++ inner ++ after).
Proof.
  intros Hinner.
  induction before as [| el rest IH].
  - cbn [app]. destruct after as [| el' after'].
    + now rewrite app_nil_r.
    + rewrite render_markdown_cons by discriminate.
      now rewrite render_markdown_append by (assumption || discriminate).
  - cbn [app].
    rewrite !render_markdown_cons, IH; [reflexivity | |].
    + destruct rest; [destruct inner; [congruence | discriminate] | discriminate].
    + destruct rest; discriminate.
Qed.

Lemma render_markdown_flattens_witness :
  _render_markdown
    [Title None "a"; Text (_render_markdown [ListItem "b"; Formula "c"]); Text "d"]
  = _render_markdown [Title None "a"; ListItem "b"; Formula "c"; Text "d"].
Proof.
  apply (render_markdown_flattens [Title None "a"] [ListItem "b"; Formula "c"] [Text "d"]).
  discriminate.
Defined.

(** ** More on type detection *)

(** Detection is idempotent on a stream at its start: when it returns,
    detecting again on the stream it leaves gives the same type and leaves
    that stream as it is. *)
Theorem get_filetype_idempotent (lib : Unstructured) (remote_file : RemoteFile)
    (file : IOBase) (answer : option FileType) :
  pos file = 0 ->
  fst (_get_filetype lib remote_file file) = inr answer ->
  _get_filetype lib remote_file (snd (_get_filetype lib remote_file file))
  = _get_filetype lib remote_file file.
Proof.
  intros Hpos. destruct file as [bytes position nm]. cbn in Hpos. subst position.
  rewrite !get_filetype_cases.
  destruct (mime_filetype lib remote_file) as [t |]; [reflexivity |].
  destruct (detect_filetype_filename lib (uri remote_file)) as [msg | file_type];
    [discriminate |].
  unfold with_cleared_name, cleared_name. cbn [data pos name].
  destruct (is_known file_type).
  - intros _. cbn. destruct nm; reflexivity.
  - destruct nm as [nm |];
      destruct (detect_filetype_file lib _) as [msg | t] eqn:Hsniff;
      first [discriminate | intros _; cbn; rewrite Hsniff; reflexivity].
Qed.

Lemma get_filetype_idempotent_witness :
  _get_filetype sample_unstructured pdf_by_content
    (snd (_get_filetype sample_unstructured pdf_by_content pdf_stream))
  = _get_filetype sample_unstructured pdf_by_content pdf_stream.
Proof.
  apply (get_filetype_idempotent sample_unstructured pdf_by_content pdf_stream (Some PDF));
    reflexivity.
Defined.

(** An unknown answer can only come from the content: when the MIME type
    is not recognized and detection answers [None] or [FileType.UNK], name
    detection had answered [None] or [FileType.UNK] and the answer is the
    one of content sniffing. *)
Theorem get_filetype_unknown_from_content (lib : Unstructured)
    (remote_file : RemoteFile) (file : IOBase) (answer : option FileType) :
  (forall m, mime_type remote_file = Some m -> m = "" \/ STR_TO_FILETYPE lib m = None) ->
  fst (_get_filetype lib remote_file file) = inr answer ->
  answer = None \/ answer = Some UNK ->
  (detect_filetype_filename lib (uri remote_file) = inr None
   \/ detect_filetype_filename lib (uri remote_file) = inr (Some UNK))
  /\ detect_filetype_file lib (with_cleared_name file) = inr answer.
Proof.
  intros Hmime Hanswer Hunknown.
  rewrite get_filetype_cases, (mime_filetype_unrecognized lib remote_file Hmime) in Hanswer.
  destruct (detect_filetype_filename lib (uri remote_file)) as [msg | file_type];
    [discriminate |].
  destruct (is_known file_type) eqn:Hknown.
  - cbn in Hanswer. injection Hanswer as ->.
    apply is_known_iff in Hknown. destruct Hknown as [t [Ht Hunk]].
    destruct Hunknown; congruence.
  - apply is_known_false_iff in Hknown.
    destruct (detect_filetype_file lib (with_cleared_name file)) as [msg | t];
      [discriminate |].
    cbn in Hanswer. injection Hanswer as ->.
    split; [destruct Hknown as [-> | ->]; auto | reflexivity].
Qed.

Lemma get_filetype_unknown_from_content_witness :
  (detect_filetype_filename (mock_unstructured UNK (inr [])) (uri fake_file) = inr None
   \/ detect_filetype_filename (mock_unstructured UNK (inr [])) (uri fake_file)
      = inr (Some UNK))
  /\ detect_filetype_file (mock_unstructured UNK (inr [])) (with_cleared_name pdf_stream)
     = inr (Some UNK).
Proof.
  apply (get_filetype_unknown_from_content (mock_unstructured UNK (inr [])) fake_file
           pdf_stream (Some UNK)).
  - intros m Hm. discriminate Hm.
  - reflexivity.
  - right. reflexivity.
Defined.

(** ** More on reading a file *)

Lemma is_supported_false (filetype : option FileType) :
  is_supported filetype = false ->
  ~ In filetype (map Some _supported_file_types).
Proof.
  destruct filetype as [[] |]; cbn; intros H;
    first [discriminate H | intros [E | [E | [E | [E | []]]]]; discriminate E].
Qed.

(** For a binary type the read position of the stream handed to
    [_read_file] does not matter: the stream is rewound first, the
    extraction routine always receives the complete bytes, and the outcome
    is its answer rendered or wrapped; on the PDF path the stream is handed
    back rewound. *)
Theorem read_file_binary_any_position (lib : Unstructured) (remote_file : RemoteFile)
    (fmt : UnstructuredFormat) (file : IOBase) (t : FileType)
    (partition : list Byte.byte -> Result (list Element)) :
  fst (_get_filetype lib remote_file file) = inr (Some t) ->
  extraction lib t = Some partition ->
  fst (_read_file lib remote_file fmt file)
  = rendered_or_wrapped remote_file (partition (data file))
  /\ data (snd (_read_file lib remote_file fmt file)) = data file
  /\ (t = PDF -> pos (snd (_read_file lib remote_file fmt file)) = 0).
Proof.
  intros Hdetect Hpartition.
  pose proof (read_after_detection lib remote_file file) as Hdata.
  unfold _read_file, bind.
  destruct (_get_filetype lib remote_file file) as [[e | filetype] file'];
    cbn in Hdetect, Hdata; [discriminate |].
  injection Hdetect as ->.
  destruct file' as [bytes position nm]; cbn in Hdata; subst bytes.
  destruct t; try discriminate Hpartition;
    cbn in Hpartition; injection Hpartition as <-; cbn;
    unfold partition_and_render, partition_stream, bind, rendered_or_wrapped; cbn;
    match goal with
    | |- context [?p lib (data file)] => destruct (p lib (data file))
    end; cbn; repeat split; intros; congruence.
Qed.

Lemma read_file_binary_any_position_witness :
  fst (_read_file (mock_unstructured PDF (inr [Text "pdf"])) fake_file failing
         pdf_stream_at_end)
  = inr "pdf"
  /\ data (snd (_read_file (mock_unstructured PDF (inr [Text "pdf"])) fake_file failing
                  pdf_stream_at_end))
     = data pdf_stream_at_end
  /\ (PDF = PDF ->
      pos (snd (_read_file (mock_unstructured PDF (inr [Text "pdf"])) fake_file failing
                  pdf_stream_at_end))
      = 0).
Proof.
  apply (read_file_binary_any_position (mock_unstructured PDF (inr [Text "pdf"]))
           fake_file failing pdf_stream_at_end PDF (fun _ => inr [Text "pdf"]));
    reflexivity.
Defined.

(** For Markdown the stream is not rewound before it is read: when the
    type comes from the MIME type or from the name, what is decoded is the
    bytes from the read position on; when it comes from sniffing, which
    rewinds, it is all the bytes.  The outcome is that of the decoder on
    those bytes. *)
Theorem read_file_markdown_from_position (lib : Unstructured)
    (remote_file : RemoteFile) (fmt : UnstructuredFormat) (file : IOBase) :
  fst (_get_filetype lib remote_file file) = inr (Some MD) ->
  fst (_read_file lib remote_file fmt file)
  = from_library
      (optional_decode lib
         (skipn (match mime_filetype lib remote_file with
                 | Some _ => pos file
                 | None =>
                     match detect_filetype_filename lib (uri remote_file) with
                     | inr file_type => if is_known file_type then pos file else 0
                     | inl _ => pos file
                     end
                 end)
                (data file))).
Proof.
  intros Hdetect. unfold _read_file, bind.
  rewrite get_filetype_cases in Hdetect |- *.
  destruct (mime_filetype lib remote_file) as [t |].
  - cbn in Hdetect |- *. injection Hdetect as ->. cbn. unfold call.
    destruct (optional_decode lib _); reflexivity.
  - destruct (detect_filetype_filename lib (uri remote_file)) as [msg | file_type];
      [discriminate |].
    destruct (is_known file_type).
    + cbn in Hdetect |- *. injection Hdetect as ->. cbn. unfold call.
      destruct (optional_decode lib _); reflexivity.
    + destruct (detect_filetype_file lib (with_cleared_name file)) as [msg | t];
        [discriminate |].
      cbn in Hdetect |- *. injection Hdetect as ->. cbn. unfold call.
      destruct (optional_decode lib _); reflexivity.
Qed.

Lemma read_file_markdown_from_position_witness :
  fst (_read_file sample_unstructured markdown_by_mime failing markdown_stream_after_title)
  = inr "body".
Proof.
  apply (read_file_markdown_from_position sample_unstructured markdown_by_mime failing
           markdown_stream_after_title).
  reflexivity.
Defined.

(** ** More on record parsing and schema inference *)

(** Where an exception of [_read_file] on a stream at its start comes
    from: detection raised it, or the type is Markdown and the decoder
    raised it, or it is a parse error made for the file at hand. *)
Lemma read_file_error_origin (lib : Unstructured) (remote_file : RemoteFile)
    (fmt : UnstructuredFormat) (file : IOBase) (e : PyException) :
  pos file = 0 ->
  fst (_read_file lib remote_file fmt file) = inl e ->
  fst (_get_filetype lib remote_file file) = inl e
  \/ (fst (_get_filetype lib remote_file file) = inr (Some MD)
      /\ from_library (optional_decode lib (data file)) = inl e)
  \/ exists message, e = RecordParseError (uri remote_file) message.
Proof.
  intros Hpos Hraise.
  destruct (fst (_get_filetype lib remote_file file)) as [e' | filetype] eqn:Hdetect.
  - left. rewrite (read_file_detection_raises lib remote_file fmt file e' Hdetect) in Hraise.
    congruence.
  - right.
    rewrite (read_file_cases lib remote_file fmt file filetype Hpos Hdetect) in Hraise.
    unfold rendered_or_wrapped, _create_parse_error in Hraise.
    destruct filetype as [[] |];
      try (right; injection Hraise as <-; eauto; fail);
      try (left; split; [reflexivity | exact Hraise]);
      right;
      match type of Hraise with
      | context [match ?r with inl _ => _ | inr _ => _ end] => destruct r
      end;
      first [discriminate Hraise | injection Hraise as <-; eauto].
Qed.

(** A parse error that [_read_file] raises on a stream at its start names
    the file at hand. *)
Lemma read_file_parse_error_filename (lib : Unstructured) (remote_file : RemoteFile)
    (fmt : UnstructuredFormat) (file : IOBase) (filename message : string) :
  pos file = 0 ->
  fst (_read_file lib remote_file fmt file) = inl (RecordParseError filename message) ->
  filename = uri remote_file.
Proof.
  intros Hpos Hraise.
  destruct (read_file_error_origin lib remote_file fmt file _ Hpos Hraise)
    as [Hdetect | [[_ Hdecode] | [message' Heq]]].
  - destruct (get_filetype_raises_library_error lib remote_file file _ Hdetect) as [msg H].
    discriminate H.
  - destruct (optional_decode lib (data file)); discriminate Hdecode.
  - congruence.
Qed.

(** A configuration whose format is not the unstructured one is rejected
    before the file is opened: [infer_schema] and [parse_records] both end
    with the same [ValueError], and no record is yielded and nothing is
    logged, whatever the file. *)
Theorem invalid_format_config_raises (lib : Unstructured) (repr : string)
    (file : RemoteFile) (stream_reader : AbstractFileBasedStreamReader) :
  let config := {| format := Other_format repr |} in
  infer_schema lib config file stream_reader
  = inl (ValueError ("Invalid format config: " ++ repr))
  /\ parse_records lib config file stream_reader
     = {| yielded := []; warnings := [];
          raised := Some (ValueError ("Invalid format config: " ++ repr)) |}.
Proof. split; reflexivity. Qed.

(** For every file detected as PDF, DOCX or PPTX whose extraction routine
    returns elements, [parse_records] yields exactly one record, whose
    content is the Markdown rendering of those elements and whose error is
    null, logs nothing and ends normally, whatever the skip flag. *)
Theorem parse_records_binary_success (lib : Unstructured) (fmt : UnstructuredFormat)
    (file : RemoteFile) (stream_reader : AbstractFileBasedStreamReader)
    (t : FileType) (partition : list Byte.byte -> Result (list Element))
    (elements : list Element) :
  detected_filetype lib stream_reader file = inr (Some t) ->
  extraction lib t = Some partition ->
  partition (file_bytes stream_reader file) = inr elements ->
  parse_records lib (unstructured_config fmt) file stream_reader
  = {| yielded := [ {| content := Some (_render_markdown elements);
                       document_key := uri file;
                       _ab_source_file_parse_error := None |} ];
       warnings := [];
       raised := None |}.
Proof.
  intros Hdetect Hpartition Hreturns.
  unfold parse_records. cbn [_extract_format unstructured_config format].
  rewrite (read_file_cases lib file fmt (open_file stream_reader file) (Some t)
             eq_refl Hdetect).
  destruct t; try discriminate Hpartition;
    cbn in Hpartition; injection Hpartition as <-;
    cbn [open_file data]; rewrite Hreturns; reflexivity.
Qed.

Lemma parse_records_binary_success_witness :
  parse_records (mock_unstructured PPTX (inr sample_elements)) (unstructured_config skipping)
    fake_file (mock_reader "pptx")
  = {| yielded := [ {| content := Some (_render_markdown sample_elements);
                       document_key := FILE_URI;
                       _ab_source_file_parse_error := None |} ];
       warnings := [];
       raised := None |}.
Proof.
  apply (parse_records_binary_success (mock_unstructured PPTX (inr sample_elements))
           skipping fake_file (mock_reader "pptx") PPTX (fun _ => inr sample_elements));
    reflexivity.
Defined.





(** The exception of the decoder is not wrapped: for a file detected as
    Markdown whose bytes the decoder rejects, [parse_records] yields
    nothing, logs nothing and ends with the exception of the decoder,
    whether skipping is enabled or not. *)
Theorem parse_records_decode_error_propagates (lib : Unstructured)
    (fmt : UnstructuredFormat) (file : RemoteFile)
    (stream_reader : AbstractFileBasedStreamReader) (msg : string) :
  detected_filetype lib stream_reader file = inr (Some MD) ->
  optional_decode lib (file_bytes stream_reader file) = inl msg ->
  parse_records lib (unstructured_config fmt) file stream_reader
  = {| yielded := []; warnings := []; raised := Some (Exception msg) |}.
Proof.
  intros Hdetect Hdecode.
  unfold parse_records. cbn [_extract_format unstructured_config format].
  rewrite (read_file_cases lib file fmt (open_file stream_reader file) (Some MD)
             eq_refl Hdetect).
  cbn [open_file data]. rewrite Hdecode. reflexivity.
Qed.

Lemma parse_records_decode_error_propagates_witness :
  parse_records (mock_unstructured MD (inr [])) (unstructured_config skipping)
    fake_file undecodable_reader
  = {| yielded := []; warnings := [];
       raised := Some (Exception "'utf-8' codec can't decode bytes: invalid start byte") |}.
Proof.
  apply (parse_records_decode_error_propagates (mock_unstructured MD (inr [])) skipping
           fake_file undecodable_reader); reflexivity.
Defined.

(** An exception of type detection is not caught either: [infer_schema]
    and [parse_records] both end with it, no record is yielded and nothing
    is logged, whether skipping is enabled or not. *)
Theorem detection_error_propagates (lib : Unstructured)
    (fmt : UnstructuredFormat) (file : RemoteFile)
    (stream_reader : AbstractFileBasedStreamReader) (e : PyException) :
  detected_filetype lib stream_reader file = inl e ->
  infer_schema lib (unstructured_config fmt) file stream_reader = inl e
  /\ parse_records lib (unstructured_config fmt) file stream_reader
     = {| yielded := []; warnings := []; raised := Some e |}.
Proof.
  intros Hdetect. split.
  - unfold infer_schema. cbn [_extract_format unstructured_config format].
    unfold detected_filetype in Hdetect.
    destruct (_get_filetype lib file (open_file stream_reader file)) as [r file'].
    cbn in Hdetect. now subst r.
  - unfold parse_records. cbn [_extract_format unstructured_config format].
    rewrite (read_file_detection_raises lib file fmt (open_file stream_reader file) e
               Hdetect).
    destruct (get_filetype_raises_library_error lib file _ _ Hdetect) as [msg ->].
    reflexivity.
Qed.

Lemma detection_error_propagates_witness :
  infer_schema raising_unstructured (unstructured_config skipping) fake_file
    (mock_reader "test")
  = inl (Exception "expected str, bytes or os.PathLike object")
  /\ parse_records raising_unstructured (unstructured_config skipping) fake_file
       (mock_reader "test")
     = {| yielded := []; warnings := [];
          raised := Some (Exception "expected str, bytes or os.PathLike object") |}.
Proof.
  apply (detection_error_propagates raising_unstructured skipping fake_file
           (mock_reader "test")).
  reflexivity.
Defined.

(** A run of [parse_records] either ends normally after exactly one record
    or ends with an exception without having yielded or logged anything. *)
Theorem parse_records_yields_or_raises (lib : Unstructured)
    (config : FileBasedStreamConfig) (file : RemoteFile)
    (stream_reader : AbstractFileBasedStreamReader) :
  (raised (parse_records lib config file stream_reader) = None
   /\ length (yielded (parse_records lib config file stream_reader)) = 1)
  \/ (raised (parse_records lib config file stream_reader) <> None
      /\ yielded (parse_records lib config file stream_reader) = []
      /\ warnings (parse_records lib config file stream_reader) = []).
Proof.
  destruct config as [[fmt | repr]]; [| right; repeat split; discriminate].
  unfold parse_records. cbn [_extract_format format].
  destruct (fst (_read_file lib file fmt (open_file stream_reader file)))
    as [[filename message | msg | msg] | markdown];
    try destruct (skip_unprocessable_files fmt);
    first [left; split; reflexivity | right; repeat split; discriminate].
Qed.

(** Warnings go with degraded records: a run that yields a record with an
    error logs exactly two warnings, the first naming the file and quoting
    that error, the second naming the file; every other run logs
    nothing. *)
Theorem parse_records_warnings (lib : Unstructured) (config : FileBasedStreamConfig)
    (file : RemoteFile) (stream_reader : AbstractFileBasedStreamReader) :
  (warnings (parse_records lib config file stream_reader) = []
   /\ forall r, In r (yielded (parse_records lib config file stream_reader)) ->
                _ab_source_file_parse_error r = None)
  \/ (exists error,
        yielded (parse_records lib config file stream_reader)
        = [ degraded_record file error ]
        /\ warnings (parse_records lib config file stream_reader)
           = [ "File " ++ uri file ++ " caused an error during parsing: " ++ error ++ ".";
               "File " ++ uri file ++ " cannot be parsed. Skipping it." ]).
Proof.
  destruct config as [[fmt | repr]]; [| left; split; [reflexivity | intros r []]].
  unfold parse_records. cbn [_extract_format format].
  destruct (fst (_read_file lib file fmt (open_file stream_reader file)))
    as [[filename message | msg | msg] | markdown].
  - destruct (skip_unprocessable_files fmt).
    + right. exists (exception_str (RecordParseError filename message)).
      split; reflexivity.
    + left. split; [reflexivity | intros r []].
  - left. split; [reflexivity | intros r []].
  - left. split; [reflexivity | intros r []].
  - left. split; [reflexivity |]. intros r [<- | []]. reflexivity.
Qed.

(** The skip flag only matters when reading fails: a run that ends
    normally with skipping disabled is, record for record, the run with
    any other setting of the flag. *)
Theorem parse_records_skip_flag_irrelevant_on_success (lib : Unstructured)
    (fmt fmt' : UnstructuredFormat) (file : RemoteFile)
    (stream_reader : AbstractFileBasedStreamReader) :
  skip_unprocessable_files fmt = false ->
  raised (parse_records lib (unstructured_config fmt) file stream_reader) = None ->
  parse_records lib (unstructured_config fmt') file stream_reader
  = parse_records lib (unstructured_config fmt) file stream_reader.
Proof.
  intros Hskip.
  unfold parse_records. cbn [_extract_format unstructured_config format].
  change (_read_file lib file fmt') with (_read_file lib file fmt).
  rewrite Hskip.
  destruct (fst (_read_file lib file fmt (open_file stream_reader file)))
    as [[filename message | msg | msg] | markdown];
    first [discriminate | reflexivity].
Qed.

Lemma parse_records_skip_flag_irrelevant_on_success_witness :
  parse_records (mock_unstructured PDF (inr sample_elements)) (unstructured_config skipping)
    fake_file (mock_reader "pdf")
  = parse_records (mock_unstructured PDF (inr sample_elements)) (unstructured_config failing)
      fake_file (mock_reader "pdf").
Proof.
  apply parse_records_skip_flag_irrelevant_on_success; reflexivity.
Defined.

(** Discovery and reading agree on rejection: whenever [infer_schema]
    raises for a file, [parse_records] on the same file and configuration
    ends with the same exception and yields nothing. *)
Theorem infer_schema_error_is_parse_records_error (lib : Unstructured)
    (config : FileBasedStreamConfig) (file : RemoteFile)
    (stream_reader : AbstractFileBasedStreamReader) (e : PyException) :
  infer_schema lib config file stream_reader = inl e ->
  parse_records lib config file stream_reader
  = {| yielded := []; warnings := []; raised := Some e |}.
Proof.
  destruct config as [[fmt | repr]].
  - unfold infer_schema, parse_records. cbn [_extract_format format].
    destruct (_get_filetype lib file (open_file stream_reader file))
      as [[e' | filetype] file'] eqn:Hget.
    + intros H. injection H as <-.
      assert (Hdetect : fst (_get_filetype lib file (open_file stream_reader file))
                        = inl e') by now rewrite Hget.
      rewrite (read_file_detection_raises lib file fmt (open_file stream_reader file) e'
                 Hdetect).
      destruct (get_filetype_raises_library_error lib file _ _ Hdetect) as [msg ->].
      reflexivity.
    + destruct (is_supported filetype) eqn:Hsupported; [discriminate |].
      destruct (skip_unprocessable_files fmt) eqn:Hskip; [discriminate |].
      cbn. intros H. injection H as <-.
      assert (Hdetect : fst (_get_filetype lib file (open_file stream_reader file))
                        = inr filetype) by now rewrite Hget.
      rewrite (read_file_unsupported lib file fmt (open_file stream_reader file) filetype
                 eq_refl Hdetect (is_supported_false filetype Hsupported)).
      reflexivity.
  - cbn. intros H. injection H as <-. reflexivity.
Qed.

Lemma infer_schema_error_is_parse_records_error_witness :
  parse_records (mock_unstructured CSV (inr [])) csv_config fake_file (mock_reader "a,b")
  = {| yielded := []; warnings := [];
       raised := Some (ValueError "Invalid format config: CsvFormat()") |}.
Proof.
  apply infer_schema_error_is_parse_records_error. reflexivity.
Defined.

(** Conversely, a file that [parse_records] turns into a record with
    content is one [infer_schema] accepts: it returns the schema for the
    same file and configuration. *)
Theorem parsed_content_implies_schema (lib : Unstructured)
    (config : FileBasedStreamConfig) (file : RemoteFile)
    (stream_reader : AbstractFileBasedStreamReader) (r : OutputRecord) :
  In r (yielded (parse_records lib config file stream_reader)) ->
  content r <> None ->
  infer_schema lib config file stream_reader = inr schema.
Proof.
  intros Hin Hcontent.
  destruct (infer_schema lib config file stream_reader) as [e | s] eqn:Hschema.
  - unfold parse_records, infer_schema in *.
    destruct (_extract_format config) as [e' | fmt]; [destruct Hin |].
    destruct (_get_filetype lib file (open_file stream_reader file))
      as [[e' | filetype] file'] eqn:Hget; [| destruct (is_supported filetype) eqn:Hsupported].
    + assert (Hdetect : fst (_get_filetype lib file (open_file stream_reader file))
                        = inl e') by now rewrite Hget.
      rewrite (read_file_detection_raises lib file fmt (open_file stream_reader file) e'
                 Hdetect) in Hin.
      destruct (get_filetype_raises_library_error lib file _ _ Hdetect) as [msg ->].
      destruct Hin.
    + discriminate Hschema.
    + assert (Hdetect : fst (_get_filetype lib file (open_file stream_reader file))
                        = inr filetype) by now rewrite Hget.
      rewrite (read_file_unsupported lib file fmt (open_file stream_reader file) filetype
                 eq_refl Hdetect (is_supported_false filetype Hsupported)) in Hin.
      destruct (skip_unprocessable_files fmt); cbn in Hin; [| destruct Hin].
      destruct Hin as [<- | []]. now elim Hcontent.
  - f_equal. unfold infer_schema in Hschema.
    destruct (_extract_format config) as [e' | fmt]; [discriminate |].
    destruct (_get_filetype lib file (open_file stream_reader file)) as [[e' | t] file'];
      [discriminate |].
    destruct (negb (is_supported t) && negb (skip_unprocessable_files fmt));
      [discriminate | congruence].
Qed.

Lemma parsed_content_implies_schema_witness :
  infer_schema (mock_unstructured MD (inr [])) (unstructured_config failing)
    fake_file (mock_reader "test")
  = inr schema.
Proof.
  apply (parsed_content_implies_schema (mock_unstructured MD (inr []))
           (unstructured_config failing) fake_file (mock_reader "test")
           {| content := Some "test"; document_key := FILE_URI;
              _ab_source_file_parse_error := None |}).
  - left. reflexivity.
  - discriminate.
Defined.

(** Every error string [parse_records] yields has one shape: the general
    parse-error text first, then [filename=] with the URI of the file, then
    [message=] with the message of the error. *)
Theorem parse_records_error_names_file (lib : Unstructured)
    (config : FileBasedStreamConfig) (file : RemoteFile)
    (stream_reader : AbstractFileBasedStreamReader) (r : OutputRecord) (error : string) :
  In r (yielded (parse_records lib config file stream_reader)) ->
  _ab_source_file_parse_error r = Some error ->
  exists message,
    error = ERROR_PARSING_RECORD ++ " Contact Support if you need assistance." ++ LF
              ++ "filename=" ++ uri file ++ " message=" ++ message.
Proof.
  destruct config as [[fmt | repr]]; [| intros []].
  unfold parse_records. cbn [_extract_format format].
  destruct (fst (_read_file lib file fmt (open_file stream_reader file)))
    as [[filename message | msg | msg] | markdown] eqn:Hread.
  - rewrite (read_file_parse_error_filename lib file fmt (open_file stream_reader file)
               filename message eq_refl Hread).
    destruct (skip_unprocessable_files fmt); [| intros []].
    intros [<- | []] Herror. cbn in Herror. injection Herror as <-.
    exists message. reflexivity.
  - intros [].
  - intros [].
  - intros [<- | []]. discriminate.
Qed.

Lemma parse_records_error_names_file_witness :
  exists message,
    RecordParseError_str FILE_URI "weird parsing error"
    = ERROR_PARSING_RECORD ++ " Contact Support if you need assistance." ++ LF
        ++ "filename=" ++ uri fake_file ++ " message=" ++ message.
Proof.
  apply (parse_records_error_names_file
           (mock_unstructured DOCX (inl (Exception "weird parsing error")))
           (unstructured_config skipping) fake_file (mock_reader "")
           (degraded_record fake_file (RecordParseError_str FILE_URI "weird parsing error"))).
  - left. reflexivity.
  - reflexivity.
Defined.

Lemma parse_records_warnings_witness :
  exists error,
    yielded (parse_records (mock_unstructured CSV (inr [])) (unstructured_config skipping)
               fake_file (mock_reader "a,b"))
    = [ degraded_record fake_file error ]
    /\ warnings (parse_records (mock_unstructured CSV (inr [])) (unstructured_config skipping)
                   fake_file (mock_reader "a,b"))
       = [ "File " ++ uri fake_file ++ " caused an error during parsing: " ++ error ++ ".";
           "File " ++ uri fake_file ++ " cannot be parsed. Skipping it." ].
Proof.
  destruct (parse_records_warnings (mock_unstructured CSV (inr []))
              (unstructured_config skipping) fake_file (mock_reader "a,b"))
    as [[Hnone _] | Hsome]; [discriminate Hnone | exact Hsome].
Defined.
